(** * MCP tools integration script (smolagents_framework/mcp_tools.py)

    A shallow embedding of the script that wires a local LiteLLM model and
    the PubMed MCP tool server into one [CodeAgent] run, together with the
    properties of its configuration builders, of its [with] block and of
    its entry point. *)

From stdpp Require Import gmap strings list fin_maps.
From Stdlib Require Import ZArith Lia.

Local Open Scope Z_scope.


(** ** Data model *)

(** The keyword arguments of [LiteLLMModel(...)]; Python integers are [Z]. *)
Record LiteLLMModel := {
  model_id : string;
  api_base : string;
  max_tokens : Z;
  num_ctx : Z;
}.

(** The keyword arguments of [StdioServerParameters(...)]; [env] is a
    Python [dict] from strings to strings. *)
Record StdioServerParameters := {
  command : string;
  args : list string;
  env : gmap string string;
}.

(** A tool advertised by the MCP server: its name and its input schema. *)
Record Tool := {
  tool_name : string;
  tool_schema : string;
}.

#[global] Instance Tool_eq_dec : EqDecision Tool.
Proof. solve_decision. Defined.

(** The object bound by [as tool_collection]; the script reads [.tools]. *)
Record ToolCollection := {
  tools : list Tool;
}.

(** The keyword arguments of [CodeAgent(...)]. *)
Record CodeAgent := {
  agent_tools : list Tool;
  agent_model : LiteLLMModel;
  add_base_tools : bool;
}.

(** What can travel up the Python stack.  The first three are the error
    classes of the tool session and of the agent runner; [ImportError] is
    what a failed import raises; a process interrupt reaches Python code as
    [KeyboardInterrupt], raised in the main thread inside whichever call is
    blocking. *)
Inductive BaseException :=
  | LaunchError (msg : string)
  | ProtocolError (msg : string)
  | RunError (msg : string)
  | ImportError (msg : string)
  | KeyboardInterrupt.

(** A call either returns a value or raises. *)
Inductive outcome (A : Type) :=
  | Return (a : A)
  | Raise (e : BaseException).
Arguments Return {A} a.
Arguments Raise {A} e.

(** ** The collaborators

    Everything the script does not define itself: the process environment
    and arguments, the MCP handshake, the agent constructor and the agent
    loop.  A [World] fixes how each of them answers. *)
Record World := {
  (** [os.environ] when the script starts *)
  os_environ : gmap string string;
  (** [sys.argv[1:]] *)
  sys_argv : list string;
  (** starting the tool server and the handshake: the catalog, or the error *)
  mcp_open : StdioServerParameters → bool → outcome (list Tool);
  (** [CodeAgent.__init__]: [None] when it returns *)
  agent_init : CodeAgent → option BaseException;
  (** [agent.run(query)]: the lines the agent writes to the console while
      it works, and the final answer or the error *)
  agent_run : CodeAgent → string → list string * outcome string;
}.

(** ** Observable events, in the order they happen *)
Inductive event :=
  | EvPrint (line : string)
  | EvNewModel (m : LiteLLMModel)
  | EvNewServerParams (p : StdioServerParameters)
  | EvOpen (p : StdioServerParameters) (trust_remote_code : bool)
  | EvOpened (catalog : list Tool)
  | EvClose (exc : option BaseException)
  | EvNewAgent (a : CodeAgent)
  | EvRun (a : CodeAgent) (query : string)
  | EvAgentOutput (line : string).

(** ** The monad of script code: reads the world, logs events, may raise *)
Definition Py (A : Type) : Type := World → list event * outcome A.

Definition ret {A} (a : A) : Py A := λ _, ([], Return a).

Definition bind {A B} (m : Py A) (k : A → Py B) : Py B :=
  λ w,
    match m w with
    | (t1, Return a) => let '(t2, o) := k a w in (t1 ++ t2, o)
    | (t1, Raise e) => (t1, Raise e)
    end.

Definition emit (ev : event) : Py () := λ _, ([ev], Return ()).

Definition ask {A} (f : World → A) : Py A := λ w, ([], Return (f w)).

Declare Scope py_scope.
Delimit Scope py_scope with py.
Notation "'let*' x ':=' m 'in' k" := (bind m (λ x, k))
  (at level 10, x name, m at level 100, k at level 200) : py_scope.
Notation "m ;;; k" := (bind m (λ _, k))
  (at level 100, right associativity) : py_scope.
Local Open Scope py_scope.

(** ** Python primitives the script uses *)

(** [print(line)] *)
Definition print (line : string) : Py () := emit (EvPrint line).

(** [s * n] on a string *)
Fixpoint str_mul (s : string) (n : nat) : string :=
  match n with
  | O => ""
  | S n' => String.append s (str_mul s n')
  end.

(** [{..., **m}] in a dict display: the items of [m] are stored one after
    the other into the dict built so far, each overwriting an entry with
    the same key. *)
Definition dict_unpack (d m : gmap string string) : gmap string string :=
  map_fold (λ k v acc, <[k:=v]> acc) d m.

(** The protocol behind a [with] statement. *)
Record ContextManager (A : Type) := {
  cm_enter : Py A;
  cm_exit : option BaseException → Py bool;
}.
Arguments cm_enter {A} c.
Arguments cm_exit {A} c exc.

(** [with cm as v: body], for a body that ends in [return].  [__exit__]
    is not called when [__enter__] raises.  When the body returns [r],
    [__exit__(None)] runs and the function returns [r].  When the body
    raises [e], [__exit__(e)] runs; a true result swallows [e] and control
    falls off the end of the block ([None] below), a false one re-raises
    [e].  An error raised by [__exit__] replaces whatever was pending. *)
Definition with_stmt {A B} (cm : ContextManager A) (body : A → Py B)
    : Py (option B) :=
  λ w,
    match cm_enter cm w with
    | (t0, Raise e) => (t0, Raise e)
    | (t0, Return v) =>
      match body v w with
      | (t1, Return r) =>
        match cm_exit cm None w with
        | (t2, Return _) => (t0 ++ t1 ++ t2, Return (Some r))
        | (t2, Raise e') => (t0 ++ t1 ++ t2, Raise e')
        end
      | (t1, Raise e) =>
        match cm_exit cm (Some e) w with
        | (t2, Return true) => (t0 ++ t1 ++ t2, Return None)
        | (t2, Return false) => (t0 ++ t1 ++ t2, Raise e)
        | (t2, Raise e') => (t0 ++ t1 ++ t2, Raise e')
        end
      end
    end.

(** ** The external constructors and calls *)

(** Modelled from the spec: the [LiteLLMModel] constructor belongs to the
    smolagents package.  [LiteLLMModel(model_id=..., api_base=...,
    max_tokens=..., num_ctx=...)] stores its arguments in an immutable
    config; it has no failure mode and contacts no endpoint, connectivity
    errors surfacing at first use only. *)
Definition new_LiteLLMModel (id base : string) (mt nc : Z) : Py LiteLLMModel :=
  let m := {| model_id := id; api_base := base; max_tokens := mt; num_ctx := nc |} in
  emit (EvNewModel m) ;;; ret m.

(** Modelled from the spec: the [StdioServerParameters] constructor
    belongs to the mcp package.  [StdioServerParameters(command=...,
    args=..., env=...)] stores its arguments in an immutable descriptor and
    holds no live process. *)
Definition new_StdioServerParameters (c : string) (a : list string)
    (e : gmap string string) : Py StdioServerParameters :=
  let p := {| command := c; args := a; env := e |} in
  emit (EvNewServerParams p) ;;; ret p.

(** Modelled from the spec: [ToolCollection.from_mcp] belongs to the
    smolagents package.  Entering it is the session's [open]: the tool
    server is started and the handshake yields the catalog, or the call
    fails.  Leaving it is the session's [close]: it terminates the server,
    returns nothing (so it swallows no exception) and has no failure. *)
Definition from_mcp (p : StdioServerParameters) (trust_remote_code : bool)
    : ContextManager ToolCollection := {|
  cm_enter := λ w,
    match mcp_open w p trust_remote_code with
    | Return catalog =>
        ([EvOpen p trust_remote_code; EvOpened catalog],
         Return {| tools := catalog |})
    | Raise e => ([EvOpen p trust_remote_code], Raise e)
    end;
  cm_exit := λ exc, emit (EvClose exc) ;;; ret false;
|}.

(** [CodeAgent(tools=..., model=..., add_base_tools=...)] *)
Definition new_CodeAgent (ts : list Tool) (m : LiteLLMModel) (abt : bool)
    : Py CodeAgent :=
  let a := {| agent_tools := ts; agent_model := m; add_base_tools := abt |} in
  λ w,
    match agent_init w a with
    | None => ([EvNewAgent a], Return a)
    | Some e => ([EvNewAgent a], Raise e)
    end.

(** [agent.run(query)] *)
Definition CodeAgent_run (a : CodeAgent) (query : string) : Py string :=
  λ w,
    let '(out, o) := agent_run w a query in
    (EvRun a query :: (EvAgentOutput <$> out), o).

(** ** The script *)

(** [initialize_model], for whatever the [LiteLLMModel] constructor does. *)
Definition initialize_model_with
    (LiteLLMModel_new : string → string → Z → Z → Py LiteLLMModel)
    : Py LiteLLMModel :=
  let* model := LiteLLMModel_new "ollama_chat/qwen2.5-coder:7b"
                                 "http://127.0.0.1:11434" 2048 8192 in
  ret model.

(** [initialize_model] with the constructor the spec describes; this is
    the builder [main] is studied with. *)
Definition initialize_model : Py LiteLLMModel :=
  initialize_model_with new_LiteLLMModel.

Definition setup_mcp_server : Py StdioServerParameters :=
  let* environ := ask os_environ in
  let* server_parameters :=
    new_StdioServerParameters "uvx" ["--quiet"; "pubmedmcp@0.1.3"]
      (dict_unpack {[ "UV_PYTHON" := "3.13" ]} environ) in
  ret server_parameters.

(** The body of the [with] block of [run_agent_with_mcp_tools]. *)
Definition agent_block (model : LiteLLMModel) (tool_collection : ToolCollection)
    : Py string :=
  let* agent := new_CodeAgent (tools tool_collection) model true in
  let* result := CodeAgent_run agent "Please find a remedy for hangover." in
  ret result.

Definition run_agent_with_mcp_tools (model : LiteLLMModel)
    (server_parameters : StdioServerParameters) : Py (option string) :=
  with_stmt (from_mcp server_parameters true) (agent_block model).

Definition main : Py () :=
  print "Initializing LiteLLM model..." ;;;
  let* model := initialize_model in
  print "Setting up MCP server parameters..." ;;;
  let* server_parameters := setup_mcp_server in
  print "Connecting to MCP server and running agent..." ;;;
  print (str_mul "-" 60) ;;;
  let* result := run_agent_with_mcp_tools model server_parameters in
  print (str_mul "-" 60) ;;;
  print "Agent completed successfully!".

(** [if __name__ == "__main__": main()]: the interpreter exits with 0 when
    [main] returns; an exception that leaves [main] ends the process with
    a traceback and status 1, an interrupt with status 130. *)
Definition exit_status {A} (o : outcome A) : Z :=
  match o with
  | Return _ => 0
  | Raise KeyboardInterrupt => 130
  | Raise _ => 1
  end.

Definition script (w : World) : list event * Z :=
  let '(t, o) := main w in (t, exit_status o).

(** ** Reading a trace *)

Definition is_open (ev : event) : bool :=
  match ev with EvOpen _ _ => true | _ => false end.

Definition is_close (ev : event) : bool :=
  match ev with EvClose _ => true | _ => false end.

Definition is_run (ev : event) : bool :=
  match ev with EvRun _ _ => true | _ => false end.

Definition is_opened (ev : event) : bool :=
  match ev with EvOpened _ => true | _ => false end.

Definition is_new_agent (ev : event) : bool :=
  match ev with EvNewAgent _ => true | _ => false end.

(** The steps of the pipeline: everything but console traffic. *)
Definition is_step (ev : event) : bool :=
  match ev with
  | EvPrint _ | EvAgentOutput _ => false
  | _ => true
  end.

Fixpoint count (f : event → bool) (t : list event) : nat :=
  match t with
  | [] => O
  | ev :: t' => if f ev then S (count f t') else count f t'
  end.

Fixpoint keep (f : event → bool) (t : list event) : list event :=
  match t with
  | [] => []
  | ev :: t' => if f ev then ev :: keep f t' else keep f t'
  end.

(** The lines written by the script's own [print] calls. *)
Fixpoint printed (t : list event) : list string :=
  match t with
  | [] => []
  | EvPrint l :: t' => l :: printed t'
  | _ :: t' => printed t'
  end.

(** Everything that reaches standard output, the agent's console lines
    included. *)
Fixpoint stdout (t : list event) : list string :=
  match t with
  | [] => []
  | EvPrint l :: t' => l :: stdout t'
  | EvAgentOutput l :: t' => l :: stdout t'
  | _ :: t' => stdout t'
  end.

(** [needle in hay] on strings. *)
Fixpoint occurs_in (needle hay : string) : bool :=
  match hay with
  | EmptyString => String.prefix needle hay
  | String _ hay' => String.prefix needle hay || occurs_in needle hay'
  end.

(** Is the tool server alive after the events of [t], given whether it
    was alive before them?  A completed handshake starts it, a close ends
    it. *)
Fixpoint server_alive (alive : bool) (t : list event) : bool :=
  match t with
  | [] => alive
  | EvOpened _ :: t' => server_alive true t'
  | EvClose _ :: t' => server_alive false t'
  | _ :: t' => server_alive alive t'
  end.

(** The same world started with other command-line arguments. *)
Definition with_argv (w : World) (argv : list string) : World := {|
  os_environ := os_environ w;
  sys_argv := argv;
  mcp_open := mcp_open w;
  agent_init := agent_init w;
  agent_run := agent_run w;
|}.

(** The values the script builds, named for the statements below. *)
Definition built_model : LiteLLMModel := {|
  model_id := "ollama_chat/qwen2.5-coder:7b";
  api_base := "http://127.0.0.1:11434";
  max_tokens := 2048;
  num_ctx := 8192;
|}.

Definition descriptor (w : World) : StdioServerParameters := {|
  command := "uvx";
  args := ["--quiet"; "pubmedmcp@0.1.3"];
  env := dict_unpack {[ "UV_PYTHON" := "3.13" ]} (os_environ w);
|}.

Definition agent_for (catalog : list Tool) : CodeAgent := {|
  agent_tools := catalog;
  agent_model := built_model;
  add_base_tools := true;
|}.

Definition hangover_query : string := "Please find a remedy for hangover.".

Definition dashes : string := str_mul "-" 60.

(** What [main] has done when it reaches the [with] block. *)
Definition preamble (w : World) : list event :=
  [ EvPrint "Initializing LiteLLM model...";
    EvNewModel built_model;
    EvPrint "Setting up MCP server parameters...";
    EvNewServerParams (descriptor w);
    EvPrint "Connecting to MCP server and running agent...";
    EvPrint dashes ].

(** The progress lines [main] prints before it enters the block. *)
Definition progress_lines : list string :=
  [ "Initializing LiteLLM model...";
    "Setting up MCP server parameters...";
    "Connecting to MCP server and running agent...";
    dashes ].

(** What [main] does after the block has returned. *)
Definition epilogue : list event :=
  [ EvPrint dashes; EvPrint "Agent completed successfully!" ].

(** The first error a collaborator raises in an execution, if any: at
    session open (launch or handshake), while the agent is built, or during
    the agent run. *)
Inductive fatal (w : World) : BaseException → Prop :=
  | fatal_open e :
      mcp_open w (descriptor w) true = Raise e → fatal w e
  | fatal_init catalog e :
      mcp_open w (descriptor w) true = Return catalog →
      agent_init w (agent_for catalog) = Some e → fatal w e
  | fatal_run catalog out e :
      mcp_open w (descriptor w) true = Return catalog →
      agent_init w (agent_for catalog) = None →
      agent_run w (agent_for catalog) hangover_query = (out, Raise e) →
      fatal w e.

(** An execution in which no collaborator raises. *)
Definition succeeds (w : World) (catalog : list Tool) (out : list string)
    (answer : string) : Prop :=
  mcp_open w (descriptor w) true = Return catalog ∧
  agent_init w (agent_for catalog) = None ∧
  agent_run w (agent_for catalog) hangover_query = (out, Return answer).

(** ** Sample worlds *)

Definition pubmed_search : Tool :=
  {| tool_name := "search_pubmed"; tool_schema := "{query: string}" |}.

(** Everything works; the agent is silent and answers. *)
Definition calm_world : World := {|
  os_environ := {[ "PATH" := "/usr/bin" ]};
  sys_argv := [];
  mcp_open := λ _ _, Return [pubmed_search];
  agent_init := λ _, None;
  agent_run := λ _ _, ([], Return "Drink water and rest.");
|}.

(** The parent shell pins another interpreter for uv. *)
Definition pinned_world : World := {|
  os_environ := {[ "UV_PYTHON" := "3.11" ]};
  sys_argv := [];
  mcp_open := λ _ _, Return [pubmed_search];
  agent_init := λ _, None;
  agent_run := λ _ _, ([], Return "Drink water and rest.");
|}.

(** [uvx] is not installed. *)
Definition no_uvx_world : World := {|
  os_environ := ∅;
  sys_argv := [];
  mcp_open := λ _ _, Raise (LaunchError "uvx: not found");
  agent_init := λ _, None;
  agent_run := λ _ _, ([], Return "unreachable");
|}.

(** The agent runner throws before it calls any tool. *)
Definition throwing_world : World := {|
  os_environ := ∅;
  sys_argv := [];
  mcp_open := λ _ _, Return [];
  agent_init := λ _, None;
  agent_run := λ _ _, ([], Raise (RunError "model endpoint unreachable"));
|}.

(** A [LiteLLMModel] constructor in an installation without the litellm
    package, which the constructor imports when it is called. *)
Definition litellm_missing (id base : string) (mt nc : Z) : Py LiteLLMModel :=
  λ _, ([], Raise (ImportError "No module named 'litellm'")).

(** The user presses Ctrl-C while the agent is working. *)
Definition interrupted_world : World := {|
  os_environ := ∅;
  sys_argv := ["--verbose"];
  mcp_open := λ _ _, Return [pubmed_search];
  agent_init := λ _, None;
  agent_run := λ _ _, (["Step 1"], Raise KeyboardInterrupt);
|}.

(** ** Dict displays *)

Lemma dict_unpack_union (d m : gmap string string) :
  dict_unpack d m = m ∪ d.
Proof.
  unfold dict_unpack.
  apply (map_fold_weak_ind (λ r m', r = m' ∪ d)).
  - symmetry. apply (left_id_L ∅ (∪)).
  - intros k v m' r _ ->. apply insert_union_l.
Qed.

Lemma dict_unpack_lookup (d m : gmap string string) (k : string) :
  dict_unpack d m !! k =
    match m !! k with Some v => Some v | None => d !! k end.
Proof.
  rewrite dict_unpack_union, lookup_union.
  destruct (m !! k), (d !! k); done.
Qed.

(** ** The builders *)

Lemma initialize_model_eq (w : World) :
  initialize_model w = ([EvNewModel built_model], Return built_model).
Proof. reflexivity. Qed.

Lemma setup_mcp_server_eq (w : World) :
  setup_mcp_server w =
    ([EvNewServerParams (descriptor w)], Return (descriptor w)).
Proof. reflexivity. Qed.

(** C6, as the code has it: [initialize_model] takes no input and passes
    four literals to the [LiteLLMModel] constructor; it does nothing else,
    so the events and the result or error of a call are exactly those of
    that one constructor call.  With the constructor the spec describes,
    any two calls, in any two worlds, return the same config, whose
    [max_tokens] and [num_ctx] are positive. *)
Theorem initialize_model_passes_literals :
  (∀ (LiteLLMModel_new : string → string → Z → Z → Py LiteLLMModel)
     (w : World),
      initialize_model_with LiteLLMModel_new w =
        LiteLLMModel_new "ollama_chat/qwen2.5-coder:7b"
                         "http://127.0.0.1:11434" 2048 8192 w) ∧
  (∀ w1 w2 : World, initialize_model w1 = initialize_model w2) ∧
  (∀ w : World, ∃ m,
      initialize_model w = ([EvNewModel m], Return m) ∧
      0 < max_tokens m ∧ 0 < num_ctx m).
Proof.
  split; [|split].
  - intros ctor w. unfold initialize_model_with, bind, ret.
    destruct (ctor _ _ _ _ w) as [t [m|e]]; [|done].
    by rewrite app_nil_r.
  - intros w1 w2. by rewrite !initialize_model_eq.
  - intros w. exists built_model. rewrite initialize_model_eq.
    split; [reflexivity|]. cbn. lia.
Qed.

(** C6 refuted: where the constructor cannot import litellm, the builder
    raises and returns no config. *)
Lemma initialize_model_can_fail :
  (initialize_model_with litellm_missing calm_world).2 =
    Raise (ImportError "No module named 'litellm'") ∧
  ∀ m, (initialize_model_with litellm_missing calm_world).2 ≠ Return m.
Proof. split; [reflexivity|]. intros m. discriminate. Qed.

(** C2, as the code has it: the descriptor's environment maps
    ["UV_PYTHON"] to the parent's value when the parent environment defines
    that variable, and to ["3.13"] only when it does not. *)
Theorem uv_python_is_a_default (w : World) :
  ∃ p, (setup_mcp_server w).2 = Return p ∧
       env p !! "UV_PYTHON" =
         Some (default "3.13" (os_environ w !! "UV_PYTHON")).
Proof.
  exists (descriptor w). split; [reflexivity|].
  cbn. rewrite dict_unpack_lookup.
  destruct (os_environ w !! "UV_PYTHON"); [done|].
  by rewrite lookup_singleton_eq.
Qed.

(** C2 refuted: a parent environment that sets [UV_PYTHON=3.11] gets its
    own value back, not ["3.13"]. *)
Lemma uv_python_parent_wins :
  os_environ pinned_world !! "UV_PYTHON" = Some "3.11" ∧
  ∃ p, (setup_mcp_server pinned_world).2 = Return p ∧
       env p !! "UV_PYTHON" = Some "3.11" ∧
       env p !! "UV_PYTHON" ≠ Some "3.13".
Proof.
  split; [by vm_compute|].
  exists (descriptor pinned_world). split; [reflexivity|].
  split; [by vm_compute|]. by vm_compute.
Qed.

(** C10: every variable of the parent environment reaches the descriptor
    with the parent's value. *)
Theorem environ_forwarded (w : World) (k v : string) :
  os_environ w !! k = Some v →
  ∃ p, (setup_mcp_server w).2 = Return p ∧ env p !! k = Some v.
Proof.
  intros Hk. exists (descriptor w). split; [reflexivity|].
  cbn. by rewrite dict_unpack_lookup, Hk.
Qed.

(** The parent's [PATH] reaches the descriptor in [calm_world]. *)
Lemma environ_forwarded_witness :
  ∃ p, (setup_mcp_server calm_world).2 = Return p ∧
       env p !! "PATH" = Some "/usr/bin".
Proof.
  apply (environ_forwarded calm_world "PATH" "/usr/bin").
  by vm_compute.
Defined.

(** ** Traces *)

Section trace_lemmas.
Variable f : event → bool.

Lemma count_app (t1 t2 : list event) :
  count f (t1 ++ t2) = (count f t1 + count f t2)%nat.
Proof.
  induction t1 as [|ev t1 IH]; [done|].
  cbn. destruct (f ev); cbn; by rewrite IH.
Qed.

Lemma keep_app (t1 t2 : list event) :
  keep f (t1 ++ t2) = keep f t1 ++ keep f t2.
Proof.
  induction t1 as [|ev t1 IH]; [done|].
  cbn. destruct (f ev); cbn; by rewrite IH.
Qed.

Hypothesis f_output : ∀ l, f (EvAgentOutput l) = false.

Lemma count_outputs (out : list string) :
  count f (EvAgentOutput <$> out) = O.
Proof.
  induction out as [|l out IH]; [done|].
  cbn. by rewrite f_output.
Qed.

Lemma keep_outputs (out : list string) :
  keep f (EvAgentOutput <$> out) = [].
Proof.
  induction out as [|l out IH]; [done|].
  cbn. by rewrite f_output.
Qed.
End trace_lemmas.

Lemma printed_app (t1 t2 : list event) :
  printed (t1 ++ t2) = printed t1 ++ printed t2.
Proof.
  induction t1 as [|ev t1 IH]; [done|].
  destruct ev; cbn; by rewrite ?IH.
Qed.

Lemma printed_outputs (out : list string) :
  printed (EvAgentOutput <$> out) = [].
Proof. induction out as [|l out IH]; [done|]. by cbn. Qed.

Lemma stdout_app (t1 t2 : list event) :
  stdout (t1 ++ t2) = stdout t1 ++ stdout t2.
Proof.
  induction t1 as [|ev t1 IH]; [done|].
  destruct ev; cbn; by rewrite ?IH.
Qed.

Lemma stdout_outputs (out : list string) :
  stdout (EvAgentOutput <$> out) = out.
Proof. induction out as [|l out IH]; [done|]. cbn. by rewrite IH. Qed.

Lemma server_alive_app (b : bool) (t1 t2 : list event) :
  server_alive b (t1 ++ t2) = server_alive (server_alive b t1) t2.
Proof.
  revert b. induction t1 as [|ev t1 IH]; intros b; [done|].
  destruct ev; cbn; by rewrite IH.
Qed.

Lemma server_alive_outputs (b : bool) (out : list string) :
  server_alive b (EvAgentOutput <$> out) = b.
Proof. induction out as [|l out IH]; [done|]. by cbn. Qed.

(** ** The control flow of the script, case by case *)

Lemma agent_block_eq (w : World) (model : LiteLLMModel) (tc : ToolCollection) :
  agent_block model tc w =
    let a := {| agent_tools := tools tc; agent_model := model;
                add_base_tools := true |} in
    match agent_init w a with
    | Some e => ([EvNewAgent a], Raise e)
    | None =>
        (EvNewAgent a :: EvRun a hangover_query
           :: (EvAgentOutput <$> (agent_run w a hangover_query).1),
         (agent_run w a hangover_query).2)
    end.
Proof.
  unfold agent_block, bind, new_CodeAgent, CodeAgent_run, ret, hangover_query.
  cbn zeta. destruct (agent_init w _); [done|].
  destruct (agent_run w _ _) as [out [r|e]]; cbn; by rewrite ?app_nil_r.
Qed.

Lemma run_agent_with_mcp_tools_eq (w : World) (model : LiteLLMModel)
    (p : StdioServerParameters) :
  run_agent_with_mcp_tools model p w =
    match mcp_open w p true with
    | Raise e => ([EvOpen p true], Raise e)
    | Return catalog =>
        match agent_block model {| tools := catalog |} w with
        | (t, Return r) =>
            ([EvOpen p true; EvOpened catalog] ++ t ++ [EvClose None],
             Return (Some r))
        | (t, Raise e) =>
            ([EvOpen p true; EvOpened catalog] ++ t ++ [EvClose (Some e)],
             Raise e)
        end
    end.
Proof.
  unfold run_agent_with_mcp_tools, with_stmt, from_mcp. cbn [cm_enter cm_exit].
  destruct (mcp_open w p true) as [catalog|e]; [|done].
  by destruct (agent_block model _ w) as [t [r|e]].
Qed.

Lemma main_eq (w : World) :
  main w =
    match run_agent_with_mcp_tools built_model (descriptor w) w with
    | (t, Return _) => (preamble w ++ t ++ epilogue, Return ())
    | (t, Raise e) => (preamble w ++ t, Raise e)
    end.
Proof.
  unfold main, bind, print, emit.
  rewrite initialize_model_eq, setup_mcp_server_eq.
  by destruct (run_agent_with_mcp_tools _ _ w) as [t [r|e]].
Qed.

Lemma script_trace (w : World) : (script w).1 = (main w).1.
Proof. unfold script. by destruct (main w). Qed.

Lemma script_status (w : World) : (script w).2 = exit_status (main w).2.
Proof. unfold script. by destruct (main w). Qed.

Lemma agent_block_no_close (w : World) (model : LiteLLMModel)
    (tc : ToolCollection) :
  count is_close (agent_block model tc w).1 = O.
Proof.
  rewrite agent_block_eq. cbn zeta.
  destruct (agent_init w _); [done|].
  cbn. by apply count_outputs.
Qed.

Lemma agent_block_keeps_alive (w : World) (model : LiteLLMModel)
    (tc : ToolCollection) (b : bool) :
  server_alive b (agent_block model tc w).1 = b.
Proof.
  rewrite agent_block_eq. cbn zeta.
  destruct (agent_init w _); [done|].
  cbn. apply server_alive_outputs.
Qed.

Lemma run_agent_with_mcp_tools_releases (w : World) (model : LiteLLMModel)
    (p : StdioServerParameters) :
  server_alive false (run_agent_with_mcp_tools model p w).1 = false.
Proof.
  rewrite run_agent_with_mcp_tools_eq.
  destruct (mcp_open w p true) as [catalog|e]; [|done].
  pose proof (agent_block_keeps_alive w model {| tools := catalog |} true) as Hb.
  destruct (agent_block model _ w) as [t [r|e]]; cbn in *;
    by rewrite server_alive_app, Hb.
Qed.

Lemma server_alive_preamble (b : bool) (w : World) :
  server_alive b (preamble w) = b.
Proof. reflexivity. Qed.

(** ** The session scope *)

(** C1: once the session is open, whatever way the block is left (the
    agent run returns, the agent construction or run raises, or an
    interrupt arrives as [KeyboardInterrupt]), close is called exactly
    once, after everything the block did and before the function delivers
    its result or lets the same error travel on; so no execution of the
    script ends with the tool server alive. *)
Theorem session_closed_on_every_exit (w : World) :
  (∀ model p catalog,
      mcp_open w p true = Return catalog →
      ∃ exc,
        (run_agent_with_mcp_tools model p w).1 =
          [EvOpen p true; EvOpened catalog]
            ++ (agent_block model {| tools := catalog |} w).1
            ++ [EvClose exc] ∧
        count is_close (agent_block model {| tools := catalog |} w).1 = O ∧
        count is_close (run_agent_with_mcp_tools model p w).1 = 1%nat ∧
        match (agent_block model {| tools := catalog |} w).2 with
        | Return r =>
            exc = None ∧
            (run_agent_with_mcp_tools model p w).2 = Return (Some r)
        | Raise e =>
            exc = Some e ∧
            (run_agent_with_mcp_tools model p w).2 = Raise e
        end) ∧
  server_alive false (script w).1 = false.
Proof.
  split.
  - intros model p catalog Hopen.
    pose proof (agent_block_no_close w model {| tools := catalog |}) as Hnc.
    rewrite run_agent_with_mcp_tools_eq, Hopen.
    destruct (agent_block model _ w) as [t [r|e]]; cbn [fst snd] in *.
    + exists None. split; [reflexivity|]. split; [exact Hnc|].
      split; [|done]. rewrite !count_app, Hnc. reflexivity.
    + exists (Some e). split; [reflexivity|]. split; [exact Hnc|].
      split; [|done]. rewrite !count_app, Hnc. reflexivity.
  - rewrite script_trace, main_eq.
    pose proof (run_agent_with_mcp_tools_releases w built_model (descriptor w)) as Hr.
    destruct (run_agent_with_mcp_tools _ _ w) as [t [r|e]]; cbn [fst snd] in *.
    + by rewrite !server_alive_app, server_alive_preamble, Hr.
    + by rewrite !server_alive_app, server_alive_preamble.
Qed.

(** The interrupted run: the block is left by [KeyboardInterrupt] and the
    session is closed before the interrupt travels on. *)
Lemma session_closed_on_interrupt :
  ∃ exc,
    (run_agent_with_mcp_tools built_model (descriptor interrupted_world)
       interrupted_world).1 =
      [EvOpen (descriptor interrupted_world) true; EvOpened [pubmed_search]]
        ++ (agent_block built_model {| tools := [pubmed_search] |}
              interrupted_world).1
        ++ [EvClose exc] ∧
    count is_close
      (agent_block built_model {| tools := [pubmed_search] |}
         interrupted_world).1 = O ∧
    count is_close
      (run_agent_with_mcp_tools built_model (descriptor interrupted_world)
         interrupted_world).1 = 1%nat ∧
    match (agent_block built_model {| tools := [pubmed_search] |}
             interrupted_world).2 with
    | Return r =>
        exc = None ∧
        (run_agent_with_mcp_tools built_model (descriptor interrupted_world)
           interrupted_world).2 = Return (Some r)
    | Raise e =>
        exc = Some e ∧
        (run_agent_with_mcp_tools built_model (descriptor interrupted_world)
           interrupted_world).2 = Raise e
    end.
Proof.
  apply (proj1 (session_closed_on_every_exit interrupted_world)
           built_model (descriptor interrupted_world) [pubmed_search]).
  reflexivity.
Defined.

(** ** The entry point *)

(** The whole of [main], by what the collaborators answer. *)
Lemma main_cases (w : World) :
  main w =
    let p := descriptor w in
    match mcp_open w p true with
    | Raise e => (preamble w ++ [EvOpen p true], Raise e)
    | Return catalog =>
        let a := agent_for catalog in
        let session := [EvOpen p true; EvOpened catalog; EvNewAgent a] in
        match agent_init w a with
        | Some e => (preamble w ++ session ++ [EvClose (Some e)], Raise e)
        | None =>
            let out := EvAgentOutput <$> (agent_run w a hangover_query).1 in
            match (agent_run w a hangover_query).2 with
            | Return _ =>
                (preamble w ++ session ++ [EvRun a hangover_query] ++ out
                   ++ [EvClose None] ++ epilogue, Return ())
            | Raise e =>
                (preamble w ++ session ++ [EvRun a hangover_query] ++ out
                   ++ [EvClose (Some e)], Raise e)
            end
        end
    end.
Proof.
  rewrite main_eq, run_agent_with_mcp_tools_eq. cbn zeta.
  destruct (mcp_open w (descriptor w) true) as [catalog|e]; [|done].
  rewrite agent_block_eq. cbn zeta. cbn [tools]. fold (agent_for catalog).
  destruct (agent_init w (agent_for catalog)) as [e|]; [done|].
  destruct (agent_run w (agent_for catalog) hangover_query) as [out [r|e]];
    cbn [fst snd]; f_equal; cbn [app]; by rewrite <- ?app_assoc.
Qed.

Lemma fatal_deterministic (w : World) (e1 e2 : BaseException) :
  fatal w e1 → fatal w e2 → e1 = e2.
Proof.
  intros H1 H2.
  destruct H1 as [e1 Ho1|c1 e1 Ho1 Hi1|c1 o1 e1 Ho1 Hi1 Hr1];
    destruct H2 as [e2 Ho2|c2 e2 Ho2 Hi2|c2 o2 e2 Ho2 Hi2 Hr2];
    rewrite Ho1 in Ho2; simplify_eq; congruence.
Qed.

Lemma main_raises_iff (w : World) (e : BaseException) :
  (main w).2 = Raise e ↔ fatal w e.
Proof.
  rewrite main_cases. cbn zeta. split.
  - destruct (mcp_open w (descriptor w) true) as [catalog|e0] eqn:Ho.
    + destruct (agent_init w (agent_for catalog)) as [e0|] eqn:Hi.
      * intros [= ->]. by eapply fatal_init.
      * destruct (agent_run w (agent_for catalog) hangover_query)
          as [out [r|e0]] eqn:Hr; cbn [fst snd]; [done|].
        intros [= ->]. by eapply fatal_run.
    + intros [= ->]. by apply fatal_open.
  - intros [e0 Ho|catalog e0 Ho Hi|catalog out e0 Ho Hi Hr]; rewrite Ho.
    + done.
    + by rewrite Hi.
    + by rewrite Hi, Hr.
Qed.

Lemma main_returns (w : World) (catalog : list Tool) (out : list string)
    (answer : string) :
  succeeds w catalog out answer →
  main w =
    (preamble w
       ++ [EvOpen (descriptor w) true; EvOpened catalog;
           EvNewAgent (agent_for catalog)]
       ++ [EvRun (agent_for catalog) hangover_query]
       ++ (EvAgentOutput <$> out) ++ [EvClose None] ++ epilogue,
     Return ()).
Proof.
  intros (Ho & Hi & Hr). rewrite main_cases. cbn zeta.
  by rewrite Ho, Hi, Hr.
Qed.

Lemma exit_status_raise {A} (e : BaseException) :
  exit_status (@Raise A e) ≠ 0.
Proof. by destruct e. Qed.

Lemma main_attempts (w : World) :
  (count is_open (main w).1 ≤ 1)%nat ∧ (count is_run (main w).1 ≤ 1)%nat.
Proof.
  rewrite main_cases. cbn zeta.
  destruct (mcp_open w (descriptor w) true) as [catalog|e0].
  - destruct (agent_init w (agent_for catalog)) as [e0|].
    + cbn. lia.
    + destruct (agent_run w (agent_for catalog) hangover_query)
        as [out [r|e0]]; cbn [fst snd];
        rewrite !count_app, !count_outputs by done; cbn; lia.
  - cbn. lia.
Qed.

(** C4: the script has no handler and no retry.  An error raised by the
    session open, by the agent construction or by the agent run is exactly
    the error that leaves [main], and [main] raises nothing else; the
    session open and the agent run are each attempted at most once; the
    process status is non-zero when an error leaves [main] and zero when
    every step succeeds. *)
Theorem errors_propagate_uncaught (w : World) :
  ((count is_open (main w).1 ≤ 1)%nat ∧ (count is_run (main w).1 ≤ 1)%nat) ∧
  (∀ e, fatal w e → (main w).2 = Raise e ∧ (script w).2 ≠ 0) ∧
  (∀ e, (main w).2 = Raise e → fatal w e) ∧
  (∀ catalog out answer,
      succeeds w catalog out answer →
      (main w).2 = Return () ∧ (script w).2 = 0).
Proof.
  split; [apply main_attempts|]. split; [|split].
  - intros e He. apply main_raises_iff in He.
    rewrite script_status, He. split; [done|apply exit_status_raise].
  - intros e. apply main_raises_iff.
  - intros catalog out answer Hs.
    rewrite script_status, (main_returns w catalog out answer Hs). done.
Qed.

(** A missing [uvx], a throwing runner and a clean run. *)
Lemma errors_propagate_uncaught_witness :
  ((main no_uvx_world).2 = Raise (LaunchError "uvx: not found") ∧
   (script no_uvx_world).2 ≠ 0) ∧
  ((main throwing_world).2 = Raise (RunError "model endpoint unreachable") ∧
   (script throwing_world).2 ≠ 0) ∧
  ((main calm_world).2 = Return () ∧ (script calm_world).2 = 0).
Proof.
  split; [|split].
  - apply (proj1 (proj2 (errors_propagate_uncaught no_uvx_world))).
    apply fatal_open. reflexivity.
  - apply (proj1 (proj2 (errors_propagate_uncaught throwing_world))).
    apply (fatal_run throwing_world [] []); reflexivity.
  - apply (proj2 (proj2 (proj2 (errors_propagate_uncaught calm_world)))
             [pubmed_search] [] "Drink water and rest.").
    repeat split; reflexivity.
Defined.

(** C3, as the code has it: on a successful run the answer comes back to
    [main] from [run_agent_with_mcp_tools], and [main] then prints the
    separator and the completion line and returns.  The lines [main]
    prints are the same six whatever the answer is; standard output holds
    them and, between the fourth and the fifth, whatever the agent wrote
    by itself. *)
Theorem completion_lines_printed (w : World) (catalog : list Tool)
    (out : list string) (answer : string) :
  succeeds w catalog out answer →
  (run_agent_with_mcp_tools built_model (descriptor w) w).2
    = Return (Some answer) ∧
  (main w).2 = Return () ∧
  printed (main w).1 =
    [ "Initializing LiteLLM model...";
      "Setting up MCP server parameters...";
      "Connecting to MCP server and running agent...";
      dashes; dashes; "Agent completed successfully!" ] ∧
  stdout (main w).1 =
    [ "Initializing LiteLLM model...";
      "Setting up MCP server parameters...";
      "Connecting to MCP server and running agent...";
      dashes ] ++ out ++ [ dashes; "Agent completed successfully!" ].
Proof.
  intros Hs. rewrite (main_returns w catalog out answer Hs).
  destruct Hs as (Ho & Hi & Hr). split; [|split; [done|split]].
  - rewrite run_agent_with_mcp_tools_eq, Ho, agent_block_eq. cbn zeta.
    cbn [tools]. fold (agent_for catalog). by rewrite Hi, Hr.
  - cbn [fst]. rewrite !printed_app, printed_outputs. reflexivity.
  - cbn [fst]. rewrite !stdout_app, stdout_outputs. reflexivity.
Qed.

(** The clean run with a silent agent. *)
Lemma completion_lines_printed_witness :
  (run_agent_with_mcp_tools built_model (descriptor calm_world) calm_world).2
    = Return (Some "Drink water and rest.") ∧
  (main calm_world).2 = Return () ∧
  printed (main calm_world).1 =
    [ "Initializing LiteLLM model...";
      "Setting up MCP server parameters...";
      "Connecting to MCP server and running agent...";
      dashes; dashes; "Agent completed successfully!" ] ∧
  stdout (main calm_world).1 =
    [ "Initializing LiteLLM model...";
      "Setting up MCP server parameters...";
      "Connecting to MCP server and running agent...";
      dashes ] ++ [] ++ [ dashes; "Agent completed successfully!" ].
Proof.
  apply (completion_lines_printed calm_world [pubmed_search] []
           "Drink water and rest.").
  repeat split; reflexivity.
Defined.

(** C3 refuted: a run that succeeds with the answer
    ["Drink water and rest."] and leaves standard output without any line
    that contains it. *)
Lemma answer_never_printed :
  succeeds calm_world [pubmed_search] [] "Drink water and rest." ∧
  (main calm_world).2 = Return () ∧
  existsb (occurs_in "Drink water and rest.") (stdout (main calm_world).1)
    = false.
Proof. repeat split; by vm_compute. Qed.

(** C5 refuted: when the session cannot be opened the execution stops
    there and the agent's run is not invoked at all. *)
Lemma no_run_when_open_fails :
  (main no_uvx_world).2 = Raise (LaunchError "uvx: not found") ∧
  count is_run (main no_uvx_world).1 = O ∧
  count is_run (main no_uvx_world).1 ≠ 1%nat.
Proof. repeat split; by vm_compute. Qed.

(** C5, as the code has it: every execution goes through the fixed
    sequence in order (model config, server descriptor, session open,
    agent construction inside the session, run, close) and stops at the
    first step that raises, the close still following a failed
    construction or run.  The agent's run is invoked exactly once when the
    session opens and the agent is built, and not at all otherwise, always
    with the one hardcoded query.  The command-line arguments change
    nothing. *)
Theorem fixed_pipeline (w : World) :
  let p := descriptor w in
  keep is_step (main w).1 =
    [EvNewModel built_model; EvNewServerParams p; EvOpen p true] ++
    match mcp_open w p true with
    | Raise _ => []
    | Return catalog =>
        [EvOpened catalog; EvNewAgent (agent_for catalog)] ++
        match agent_init w (agent_for catalog) with
        | Some e => [EvClose (Some e)]
        | None =>
            [EvRun (agent_for catalog) hangover_query;
             EvClose
               match (agent_run w (agent_for catalog) hangover_query).2 with
               | Return _ => None
               | Raise e => Some e
               end]
        end
    end ∧
  keep is_run (main w).1 =
    match mcp_open w p true with
    | Raise _ => []
    | Return catalog =>
        match agent_init w (agent_for catalog) with
        | Some _ => []
        | None => [EvRun (agent_for catalog) hangover_query]
        end
    end ∧
  (∀ argv, main (with_argv w argv) = main w).
Proof.
  cbn zeta. split; [|split].
  - rewrite main_cases. cbn zeta.
    destruct (mcp_open w (descriptor w) true) as [catalog|e]; [|done].
    destruct (agent_init w (agent_for catalog)) as [e|]; [done|].
    destruct (agent_run w (agent_for catalog) hangover_query)
      as [out [r|e]]; cbn [fst snd];
      rewrite !keep_app, keep_outputs by done; reflexivity.
  - rewrite main_cases. cbn zeta.
    destruct (mcp_open w (descriptor w) true) as [catalog|e]; [|done].
    destruct (agent_init w (agent_for catalog)) as [e|]; [done|].
    destruct (agent_run w (agent_for catalog) hangover_query)
      as [out [r|e]]; cbn [fst snd];
      rewrite !keep_app, keep_outputs by done; reflexivity.
  - intros argv. rewrite !main_cases. reflexivity.
Qed.

(** ** The agent's tools *)




(** ** The environment handed to the tool server *)

Lemma descriptor_env_union (w : World) :
  env (descriptor w) = os_environ w ∪ {[ "UV_PYTHON" := "3.13" ]}.
Proof. cbn. apply dict_unpack_union. Qed.

(** Apart from ["UV_PYTHON"], the descriptor's environment is the parent's:
    a variable is bound there exactly when the parent binds it, to the same
    value; the script adds no other variable and drops none. *)
Theorem env_other_keys_unchanged (w : World) (k : string) :
  k ≠ "UV_PYTHON" →
  ∃ p, (setup_mcp_server w).2 = Return p ∧
       env p !! k = os_environ w !! k.
Proof.
  intros Hk. exists (descriptor w). split; [reflexivity|].
  rewrite descriptor_env_union, lookup_union.
  rewrite lookup_singleton_ne by done.
  by destruct (os_environ w !! k).
Qed.

(** [HOME] is unset in [calm_world] and stays unset for the tool server. *)
Lemma env_other_keys_unchanged_witness :
  ∃ p, (setup_mcp_server calm_world).2 = Return p ∧
       env p !! "HOME" = os_environ calm_world !! "HOME".
Proof. apply (env_other_keys_unchanged calm_world "HOME"). done. Defined.

(** When the parent environment defines [UV_PYTHON] the tool server gets
    the parent environment unchanged, the script's own entry having no
    effect; when it does not, the tool server gets the parent environment
    with the one binding [UV_PYTHON=3.13] added. *)
Theorem env_is_parent_plus_default (w : World) :
  ∃ p, (setup_mcp_server w).2 = Return p ∧
       env p =
         match os_environ w !! "UV_PYTHON" with
         | Some _ => os_environ w
         | None => <["UV_PYTHON" := "3.13"]> (os_environ w)
         end.
Proof.
  exists (descriptor w). split; [reflexivity|].
  rewrite descriptor_env_union.
  destruct (os_environ w !! "UV_PYTHON") as [v|] eqn:Hv.
  - apply map_eq. intros k. rewrite lookup_union.
    destruct (decide (k = "UV_PYTHON")) as [->|Hk].
    + by rewrite Hv, lookup_singleton_eq.
    + rewrite lookup_singleton_ne by done. by destruct (os_environ w !! k).
  - symmetry. by apply insert_union_singleton_r.
Qed.

(** The variables the tool server sees are the parent's variables and
    [UV_PYTHON]: one more than the parent has when the parent does not
    define [UV_PYTHON], the same number when it does. *)
Theorem env_domain (w : World) :
  ∃ p, (setup_mcp_server w).2 = Return p ∧
       dom (env p) = dom (os_environ w) ∪ {[ "UV_PYTHON" ]} ∧
       size (env p) =
         match os_environ w !! "UV_PYTHON" with
         | Some _ => size (os_environ w)
         | None => S (size (os_environ w))
         end.
Proof.
  exists (descriptor w). split; [reflexivity|]. split.
  - by rewrite descriptor_env_union, dom_union_L, dom_singleton_L.
  - rewrite descriptor_env_union.
    destruct (os_environ w !! "UV_PYTHON") as [v|] eqn:Hv.
    + f_equal. apply map_eq. intros k. rewrite lookup_union.
      destruct (decide (k = "UV_PYTHON")) as [->|Hk].
      * by rewrite Hv, lookup_singleton_eq.
      * rewrite lookup_singleton_ne by done. by destruct (os_environ w !! k).
    + rewrite <- insert_union_singleton_r by done.
      by apply map_size_insert_None.
Qed.

(** ** The block and its session, further *)

(** Every call of [run_agent_with_mcp_tools] makes exactly one attempt to
    open a session, on the descriptor it was given and with
    [trust_remote_code=True], whatever happens afterwards. *)
Theorem one_open_attempt_trusting_remote_code (w : World)
    (model : LiteLLMModel) (p : StdioServerParameters) :
  keep is_open (run_agent_with_mcp_tools model p w).1 = [EvOpen p true].
Proof.
  rewrite run_agent_with_mcp_tools_eq.
  destruct (mcp_open w p true) as [catalog|e0]; [|done].
  rewrite agent_block_eq. cbn zeta.
  destruct (agent_init w _) as [e0|]; [done|].
  destruct (agent_run w _ hangover_query) as [out [r|e0]]; cbn [fst snd];
    cbn [app]; rewrite ?app_comm_cons, !keep_app; cbn;
    by rewrite keep_outputs.
Qed.

(** When the session cannot be opened [main] stops there with the same
    error: no agent is built, nothing is run, and close is not called,
    there being no session to close. *)
Theorem failed_open_skips_agent_and_close (w : World) (e : BaseException) :
  mcp_open w (descriptor w) true = Raise e →
  (main w).2 = Raise e ∧
  count is_new_agent (main w).1 = O ∧
  count is_run (main w).1 = O ∧
  count is_close (main w).1 = O.
Proof.
  intros Ho. rewrite main_cases. cbn zeta. rewrite Ho. by cbn.
Qed.

(** [uvx] missing. *)
Lemma failed_open_skips_agent_and_close_witness :
  (main no_uvx_world).2 = Raise (LaunchError "uvx: not found") ∧
  count is_new_agent (main no_uvx_world).1 = O ∧
  count is_run (main no_uvx_world).1 = O ∧
  count is_close (main no_uvx_world).1 = O.
Proof.
  apply (failed_open_skips_agent_and_close no_uvx_world
           (LaunchError "uvx: not found")).
  reflexivity.
Defined.

(** In every execution of [main] the completed handshakes and the closes
    balance: a session that opened is closed once, and close is never
    called for a session that did not open. *)
Theorem opens_and_closes_balance (w : World) :
  count is_opened (main w).1 = count is_close (main w).1 ∧
  (count is_close (main w).1 ≤ 1)%nat.
Proof.
  rewrite main_cases. cbn zeta.
  destruct (mcp_open w (descriptor w) true) as [catalog|e0].
  - destruct (agent_init w (agent_for catalog)) as [e0|].
    + cbn. lia.
    + destruct (agent_run w (agent_for catalog) hangover_query)
        as [out [r|e0]]; cbn [fst snd];
        rewrite !count_app, !count_outputs by done; cbn; lia.
  - cbn. lia.
Qed.

(** ** What [main] prints *)

Lemma printed_main_cases (w : World) :
  printed (main w).1 =
    progress_lines ++
    match (main w).2 with
    | Return _ => [dashes; "Agent completed successfully!"]
    | Raise _ => []
    end.
Proof.
  rewrite main_cases. cbn zeta.
  destruct (mcp_open w (descriptor w) true) as [catalog|e0]; [|done].
  destruct (agent_init w (agent_for catalog)) as [e0|]; [done|].
  destruct (agent_run w (agent_for catalog) hangover_query)
    as [out [r|e0]]; cbn [fst snd];
    rewrite !printed_app, printed_outputs; reflexivity.
Qed.

Lemma completion_line_not_progress :
  "Agent completed successfully!" ∉ progress_lines.
Proof. apply (bool_decide_unpack _). by vm_compute. Qed.

(** When the session open, the agent construction or the agent run
    raises, [main] has by then printed the four progress lines and prints
    nothing more: no closing separator and no completion line. *)
Theorem failure_prints_progress_only (w : World) (e : BaseException) :
  fatal w e →
  (main w).2 = Raise e ∧ printed (main w).1 = progress_lines.
Proof.
  intros He. apply main_raises_iff in He. split; [exact He|].
  rewrite printed_main_cases, He. apply app_nil_r.
Qed.

(** The runner throws. *)
Lemma failure_prints_progress_only_witness :
  (main throwing_world).2 = Raise (RunError "model endpoint unreachable") ∧
  printed (main throwing_world).1 = progress_lines.
Proof.
  apply (failure_prints_progress_only throwing_world
           (RunError "model endpoint unreachable")).
  apply (fatal_run throwing_world [] []); reflexivity.
Defined.

(** ["Agent completed successfully!"] is printed exactly in the executions
    in which [main] returns: never after a failed open, a failed agent
    construction, a failed run or an interrupt. *)
Theorem completion_line_iff_success (w : World) :
  "Agent completed successfully!" ∈ printed (main w).1 ↔
  (main w).2 = Return ().
Proof.
  rewrite printed_main_cases. split.
  - destruct (main w).2 as [[]|e]; [done|].
    rewrite app_nil_r. intros Hin.
    by destruct (completion_line_not_progress).
  - intros ->. apply elem_of_app. right.
    apply elem_of_cons. right. by apply list_elem_of_singleton.
Qed.

(** The clean run prints the completion line. *)
Lemma completion_line_iff_success_witness :
  "Agent completed successfully!" ∈ printed (main calm_world).1.
Proof.
  apply (proj2 (completion_line_iff_success calm_world)). reflexivity.
Defined.

(** When [main] returns, the closing separator and the completion line
    are the last two events and the close of the session is the event just
    before them: success is reported only once the tool server has been
    shut down. *)
Theorem success_reported_after_close (w : World) :
  (main w).2 = Return () →
  ∃ t, (main w).1 =
         t ++ [EvClose None; EvPrint dashes;
               EvPrint "Agent completed successfully!"] ∧
       count is_close t = O ∧
       server_alive false t = true.
Proof.
  rewrite main_cases. cbn zeta.
  destruct (mcp_open w (descriptor w) true) as [catalog|e0]; [|done].
  destruct (agent_init w (agent_for catalog)) as [e0|]; [done|].
  destruct (agent_run w (agent_for catalog) hangover_query)
    as [out [r|e0]]; cbn [fst snd]; [|done].
  intros _.
  exists (preamble w
            ++ [EvOpen (descriptor w) true; EvOpened catalog;
                EvNewAgent (agent_for catalog)]
            ++ [EvRun (agent_for catalog) hangover_query]
            ++ (EvAgentOutput <$> out)).
  split; [|split].
  - by rewrite <- !app_assoc.
  - rewrite !count_app, count_outputs by done. reflexivity.
  - rewrite !server_alive_app, server_alive_outputs. reflexivity.
Qed.

(** The clean run. *)
Lemma success_reported_after_close_witness :
  ∃ t, (main calm_world).1 =
         t ++ [EvClose None; EvPrint dashes;
               EvPrint "Agent completed successfully!"] ∧
       count is_close t = O ∧
       server_alive false t = true.
Proof.
  apply (success_reported_after_close calm_world). reflexivity.
Defined.

(** Everything the agent writes to the console reaches standard output
    after the four progress lines, in the order it was written, also when
    the run then fails; [main] adds its two closing lines only when it
    returns. *)
Theorem stdout_keeps_agent_output (w : World) (catalog : list Tool) :
  mcp_open w (descriptor w) true = Return catalog →
  agent_init w (agent_for catalog) = None →
  stdout (main w).1 =
    progress_lines
      ++ (agent_run w (agent_for catalog) hangover_query).1
      ++ match (agent_run w (agent_for catalog) hangover_query).2 with
         | Return _ => [dashes; "Agent completed successfully!"]
         | Raise _ => []
         end.
Proof.
  intros Ho Hi. rewrite main_cases. cbn zeta. rewrite Ho, Hi.
  destruct (agent_run w (agent_for catalog) hangover_query)
    as [out [r|e0]]; cbn [fst snd];
    rewrite !stdout_app, stdout_outputs; reflexivity.
Qed.

(** The interrupted agent had written one line. *)
Lemma stdout_keeps_agent_output_witness :
  stdout (main interrupted_world).1 =
    progress_lines
      ++ (agent_run interrupted_world (agent_for [pubmed_search])
            hangover_query).1
      ++ match (agent_run interrupted_world (agent_for [pubmed_search])
                  hangover_query).2 with
         | Return _ => [dashes; "Agent completed successfully!"]
         | Raise _ => []
         end.
Proof.
  apply (stdout_keeps_agent_output interrupted_world [pubmed_search]);
    reflexivity.
Defined.

(** ** String repetition *)

Lemma string_length_append (s1 s2 : string) :
  String.length (String.append s1 s2)
    = (String.length s1 + String.length s2)%nat.
Proof.
  induction s1 as [|c s1 IH]; [done|].
  change (S (String.length (String.append s1 s2))
          = S (String.length s1 + String.length s2)).
  by rewrite IH.
Qed.

(** [s * n] is [n] times as long as [s]; the separator ["-" * 60] that
    [main] prints before and after the run is therefore 60 characters
    long. *)
Theorem str_mul_length (s : string) (n : nat) :
  String.length (str_mul s n) = (n * String.length s)%nat ∧
  String.length dashes = 60%nat.
Proof.
  split; [|reflexivity].
  induction n as [|n IH]; [done|].
  change (str_mul s (S n)) with (String.append s (str_mul s n)).
  rewrite string_length_append, IH. lia.
Qed.
